(** * Fast-BOZ: the chat gateway of [main.py], embedded and verified

    The gateway validates a chat request, resolves a model name against the
    namespace of the completion engine ([g4f.models]), awaits the engine under
    a 30 second deadline and maps every failure to an HTTP status.

    The embedding follows [main.py] block by block:
    - Python [str] values are sequences of Unicode code points;
    - the module [g4f.models] is a finite map from attribute names to objects;
    - exceptions are values of [exn], and the handlers of [try]/[except] are
      written out with [try_except];
    - the log lines and the call of the engine are recorded in a trace that
      is threaded through the request handler. *)

From Stdlib Require Import ZArith NArith QArith String Ascii DecimalString.
From stdpp Require Import base option list gmap sorting.

Open Scope Z_scope.

(** ** Python strings *)

Module PyStr.

(** A Python [str]: the sequence of its code points. *)
Abbreviation str := (list N).

(** A literal of the source, given in ASCII. *)
Definition lit (s : string) : str := N_of_ascii <$> list_ascii_of_string s.

(** [s.startswith(p)] *)
Fixpoint startswith (p s : str) : bool :=
  match p, s with
  | [], _ => true
  | _ :: _, [] => false
  | a :: p', b :: s' => N.eqb a b && startswith p' s'
  end.

(** [needle in hay] *)
Fixpoint contains (needle hay : str) : bool :=
  startswith needle hay ||
  match hay with
  | [] => false
  | _ :: hay' => contains needle hay'
  end.

(** [s.replace(a, b)] for one-character [a] and [b]: every occurrence of
    the code point [a] becomes [b]. *)
Definition replace (a b : N) (s : str) : str :=
  (λ c, if N.eqb c a then b else c) <$> s.

(** [s.split(sep)] for a one-character separator: the segments between the
    occurrences of [sep]; never the empty list. *)
Fixpoint split (sep : N) (s : str) : list str :=
  match s with
  | [] => [[]]
  | c :: s' =>
      if N.eqb c sep then [] :: split sep s'
      else match split sep s' with
           | seg :: rest => (c :: seg) :: rest
           | [] => [[c]]
           end
  end.

(** [sep.join(l)] *)
Fixpoint join (sep : str) (l : list str) : str :=
  match l with
  | [] => []
  | [s] => s
  | s :: l' => s ++ sep ++ join sep l'
  end.

(** [c.isspace()]: the code points CPython's [_PyUnicode_IsWhitespace]
    accepts, which are the ones [str.strip()] removes. *)
Definition isspace (c : N) : bool :=
  ((9 <=? c) && (c <=? 13) || (28 <=? c) && (c <=? 32)
   || (c =? 133) || (c =? 160) || (c =? 5760)
   || (8192 <=? c) && (c <=? 8202)
   || (c =? 8232) || (c =? 8233) || (c =? 8239) || (c =? 8287)
   || (c =? 12288))%N.

Fixpoint lstrip (s : str) : str :=
  match s with
  | [] => []
  | c :: s' => if isspace c then lstrip s' else s
  end.

Definition rstrip (s : str) : str := reverse (lstrip (reverse s)).

(** [s.strip()] *)
Definition strip (s : str) : str := rstrip (lstrip s).

(** [str(n)] for a length. *)
Definition of_nat (n : nat) : str := lit (NilZero.string_of_uint (Nat.to_uint n)).

(** [str(n)] for a status code. *)
Definition of_Z (z : Z) : str := lit (NilZero.string_of_int (Z.to_int z)).

(** The order of [sorted] on strings: lexicographic on code points. *)
Fixpoint leb (s t : str) : bool :=
  match s, t with
  | [], _ => true
  | _ :: _, [] => false
  | a :: s', b :: t' => (a <? b)%N || (N.eqb a b && leb s' t')
  end.

Definition le (s t : str) : Prop := leb s t = true.

#[export] Instance le_dec s t : Decision (le s t).
Proof. unfold le. apply _. Defined.

End PyStr.

Import PyStr.

(** ** Python values and exceptions *)

(** The objects the gateway meets as attributes of [g4f.models]; [str(o)] is
    all it ever asks of one. *)
Inductive pyobj : Type :=
  | PyNone
  | PyString (s : str)
  | PyObject (text : str).

(** [str(o)] *)
Definition py_str (o : pyobj) : str :=
  match o with
  | PyNone => lit "None"
  | PyString s => s
  | PyObject text => text
  end.

(** The instances of [Exception] the handlers tell apart. [OtherError] is an
    instance of a class that derives from none of the classes before it.
    What only derives from [BaseException] (a keyboard interrupt, the
    cancellation of the task) is caught by no clause of [main.py] and is
    not modelled. *)
Inductive exn : Type :=
  | HTTPException (status_code : Z) (detail : str)
  | TimeoutError (text : str)
  | AttributeError (text : str)
  | TypeError (text : str)
  | IndexError (text : str)
  | OtherError (type_name : str) (text : str).

(** [type(e).__name__] *)
Definition exn_type_name (e : exn) : str :=
  match e with
  | HTTPException _ _ => lit "HTTPException"
  | TimeoutError _ => lit "TimeoutError"
  | AttributeError _ => lit "AttributeError"
  | TypeError _ => lit "TypeError"
  | IndexError _ => lit "IndexError"
  | OtherError n _ => n
  end.

(** [str(e)] *)
Definition exn_str (e : exn) : str :=
  match e with
  | HTTPException s d => of_Z s ++ lit ": " ++ d
  | TimeoutError t | AttributeError t | TypeError t | IndexError t => t
  | OtherError _ t => t
  end.

Definition is_HTTPException (e : exn) : bool :=
  match e with HTTPException _ _ => true | _ => false end.
Definition is_TimeoutError (e : exn) : bool :=
  match e with TimeoutError _ => true | _ => false end.
Definition is_AttributeError (e : exn) : bool :=
  match e with AttributeError _ => true | _ => false end.

(** The outcome of evaluating an expression: a value or a raised exception. *)
Inductive result (A : Type) : Type :=
  | Ok (a : A)
  | Raise (e : exn).
Arguments Ok {A} a.
Arguments Raise {A} e.

(** ** The data model of [main.py] *)

Record Message : Type := { role : str; content : str }.

(** [history] and [model] are [Optional]: a JSON null reaches the handler as
    [None]. *)
Record ChatRequest : Type := {
  message : str;
  history : option (list Message);
  model : option str
}.

Record ChatResponse : Type := {
  response : str;
  used_model : str;
  used_provider : str
}.

Record ListModelsResponse : Type := { listed_models : list str }.

(** The defaults of the [ChatRequest] schema. *)
Definition ChatRequest_default (msg : str) : ChatRequest :=
  {| message := msg; history := Some []; model := Some (lit "gpt-4o-mini") |}.

(** A message as the engine receives it: the dict
    [{"role": ..., "content": ...}], keys in insertion order. *)
Abbreviation msgdict := (list (str * str)).

(** ** The completion engine *)

(** A module seen through [dir] and [getattr]: its attributes by name, and
    the exception its [__dir__] hook raises, if it has one that does. *)
Record pymodule : Type := {
  attrs : gmap str pyobj;
  dir_raises : option exn
}.

(** [g4f.ChatCompletion.provider], as found once the call has returned. *)
Inductive provider_attr : Type :=
  | NoProvider
  | Provider (name__ : option str).

(** One run of [create_async]: the seconds it takes, what it then yields
    (a string, [None], or an exception) and the provider attribute it leaves
    behind. *)
Record engine_run : Type := {
  elapsed : Q;
  produced : result (option str);
  provider_after : provider_attr
}.

Record g4f : Type := {
  models : pymodule;
  create_async : pyobj -> list msgdict -> engine_run
}.

(** [dir(m)]: the attribute names, sorted. *)
Definition dir (m : pymodule) : result (list str) :=
  match dir_raises m with
  | Some e => Raise e
  | None => Ok (merge_sort PyStr.le (elements (dom (attrs m))))
  end.

(** [getattr(m, name)] *)
Definition getattr (m : pymodule) (name : str) : result pyobj :=
  match attrs m !! name with
  | Some o => Ok o
  | None => Raise (AttributeError
              (lit "module 'g4f.models' has no attribute '" ++ name ++ lit "'"))
  end.

(** [[attr for attr in names if not attr.startswith("_")]] *)
Definition public (names : list str) : list str :=
  List.filter (fun attr => negb (startswith (lit "_") attr)) names.

(** [asyncio.wait_for(run, timeout)]: what the run yields when it is done
    within [timeout] seconds, [asyncio.TimeoutError] otherwise. *)
Definition wait_for (run : engine_run) (timeout : Q) : result (option str) :=
  if Qle_bool (elapsed run) timeout then produced run else Raise (TimeoutError []).

(** ** The handler monad: a trace and exceptions *)

(** What a request handler does that a caller can observe besides its
    answer: the lines it logs and the calls it makes to the engine. *)
Inductive event : Type :=
  | LogInfo (line : str)
  | LogError (line : str)
  | EngineCall (model : pyobj) (messages : list msgdict).

Definition M (A : Type) : Type := list event -> result A * list event.

#[export] Instance M_ret : MRet M := fun A a tr => (Ok a, tr).

#[export] Instance M_bind : MBind M := fun A B k m tr =>
  match m tr with
  | (Ok a, tr') => k a tr'
  | (Raise e, tr') => (Raise e, tr')
  end.

#[export] Instance M_throw : MThrow exn M := fun A e tr => (Raise e, tr).

(** [try: body except: handler]; a handler re-raises what its clause does
    not name. *)
Definition try_except {A} (body : M A) (handler : exn -> M A) : M A := fun tr =>
  match body tr with
  | (Ok a, tr') => (Ok a, tr')
  | (Raise e, tr') => handler e tr'
  end.

Definition emit (ev : event) : M unit := fun tr => (Ok tt, tr ++ [ev]).

(** The value or the exception of a pure expression. *)
Definition eval {A} (r : result A) : M A :=
  match r with
  | Ok a => mret a
  | Raise e => mthrow e
  end.

(** The answer of a handler and its trace, from an empty trace. *)
Definition answer {A} (m : M A) : result A := fst (m []).
Definition trace {A} (m : M A) : list event := snd (m []).

(** The status line FastAPI sends: 200 for a returned value, the status of
    an [HTTPException], 500 for any other exception that leaves the
    handler. *)
Definition http_status {A} (r : result A) : Z :=
  match r with
  | Ok _ => 200
  | Raise (HTTPException s _) => s
  | Raise _ => 500
  end.

(** The calls of the engine in a trace. *)
Definition engine_calls (tr : list event) : list (pyobj * list msgdict) :=
  omap (fun ev => match ev with EngineCall m ms => Some (m, ms) | _ => None end) tr.

(** ** [GET /api/models] *)

Definition list_models (g : g4f) : result ListModelsResponse :=
  match dir (models g) with
  | Ok names =>
      let available := public names in
      Ok {| listed_models := available |}
  | Raise _ =>
      Raise (HTTPException 500 (lit "Could not retrieve models"))
  end.

(** ** [POST /api/chat] *)

(** An f-string field holding an [Optional[str]]. *)
Definition fmt_optional (o : option str) : str :=
  match o with
  | Some s => s
  | None => lit "None"
  end.

(** [for msg in history: if msg.role not in ["user", "assistant"]: raise ...] *)
Fixpoint check_roles (h : list Message) : M unit :=
  match h with
  | [] => mret tt
  | msg :: h' =>
      if bool_decide (role msg ∈ [lit "user"; lit "assistant"])
      then check_roles h'
      else mthrow (HTTPException 400
             (lit "Invalid role. Only 'user' and 'assistant' are allowed."))
  end.

(** The loop over [request.history]; iterating [None] raises [TypeError]. *)
Definition validate_history (h : option (list Message)) : M (list Message) :=
  match h with
  | None => mthrow (TypeError (lit "'NoneType' object is not iterable"))
  | Some l => check_roles l ;; mret l
  end.

(** [[{"role": m.role, "content": m.content} for m in history]], then the
    [append] of the new user turn. *)
Definition build_messages (h : list Message) (msg : str) : list msgdict :=
  let messages :=
    (fun m => [(lit "role", role m); (lit "content", content m)]) <$> h in
  messages ++ [[(lit "role", lit "user"); (lit "content", msg)]].

(** [request.model.replace("-", "_")]; [None] has no [replace]. *)
Definition normalize_model (o : option str) : result str :=
  match o with
  | Some s => Ok (replace 45 95 s)
  | None => Raise (AttributeError (lit "'NoneType' object has no attribute 'replace'"))
  end.

(** The inner [try] that resolves the model, with its [except AttributeError]. *)
Definition resolve_model (g : g4f) (requested : option str) : M pyobj :=
  try_except
    (model_name ← eval (normalize_model requested);
     eval (getattr (models g) model_name))
    (fun e =>
       if is_AttributeError e then
         names ← eval (dir (models g));
         let available := public names in
         mthrow (HTTPException 400
           (lit "Model '" ++ fmt_optional requested
            ++ lit "' not found. Available: " ++ join (lit ", ") available))
       else mthrow e).

(** The inner [try] around the awaited call, with its
    [except asyncio.TimeoutError]. *)
Definition call_engine (g : g4f) (model : pyobj) (messages : list msgdict)
  : M (option str * provider_attr) :=
  try_except
    (emit (EngineCall model messages) ;;
     let run := create_async g model messages in
     r ← eval (wait_for run 30);
     mret (r, provider_after run))
    (fun e =>
       if is_TimeoutError e then
         mthrow (HTTPException 504 (lit "AI response timed out"))
       else mthrow e).

(** [not s] for a string: the empty string is the only false one. *)
Definition falsy (s : str) : bool :=
  match s with
  | [] => true
  | _ :: _ => false
  end.

(** [not response or not response.strip()]; [not None] holds, and [or] then
    skips its right operand. *)
Definition is_blank (r : option str) : bool :=
  match r with
  | None => true
  | Some response => falsy response || falsy (strip response)
  end.

(** [xs[-1]] *)
Definition last_item (xs : list str) : result str :=
  match last xs with
  | Some x => Ok x
  | None => Raise (IndexError (lit "list index out of range"))
  end.

(** [str(model).split(".")[-1].replace("_", "-")] *)
Definition display_model (model : pyobj) : result str :=
  match last_item (split 46 (py_str model)) with
  | Ok seg => Ok (replace 95 45 seg)
  | Raise e => Raise e
  end.

(** The provider name: ["Unknown"] unless [ChatCompletion] has the
    attribute, ["Auto"] when reading its [__name__] raises. *)
Definition provider_name (p : provider_attr) : str :=
  match p with
  | NoProvider => lit "Unknown"
  | Provider (Some name) => name
  | Provider None => lit "Auto"
  end.

(** The outer [except] clauses: [except HTTPException: raise], then
    [except Exception as e]. *)
Definition on_error {A} (e : exn) : M A :=
  if is_HTTPException e then mthrow e
  else
    emit (LogError (lit "AI Error: " ++ exn_type_name e ++ lit ": " ++ exn_str e)) ;;
    if contains (lit "Cloudflare") (exn_str e) then
      mthrow (HTTPException 503 (lit "AI service is temporarily blocked"))
    else mthrow (HTTPException 500 (lit "AI processing failed")).

(** The line logged on receipt. *)
Definition received (request : ChatRequest) : event :=
  LogInfo (lit "Chat request | Model: " ++ fmt_optional (model request)).

Definition chat_with_ai (g : g4f) (request : ChatRequest) : M ChatResponse :=
  emit (received request) ;;
  h ← validate_history (history request);
  try_except
    (let messages := build_messages h (message request) in
     model ← resolve_model g (model request);
     '(r, prov) ← call_engine g model messages;
     if is_blank r then
       mthrow (HTTPException 502 (lit "Empty response from AI"))
     else
       shown ← eval (display_model model);
       let provider := provider_name prov in
       match r with
       | Some response =>
           let clean_response := strip response in
           emit (LogInfo (lit "AI responded | Provider: " ++ provider
                          ++ lit ", Length: " ++ of_nat (length clean_response))) ;;
           mret {| response := clean_response;
                   used_model := shown;
                   used_provider := provider |}
       | None =>
           (* not reached: [not None] holds, the 502 above is raised *)
           mthrow (AttributeError (lit "'NoneType' object has no attribute 'strip'"))
       end)
    on_error.

(** [chat()] as a caller sees it. *)
Definition chat (g : g4f) (request : ChatRequest) : result ChatResponse :=
  answer (chat_with_ai g request).

(** ** Vocabulary of the statements *)

(** The roles the history loop lets through. *)
Definition allowed (msg : Message) : Prop :=
  role msg ∈ [lit "user"; lit "assistant"].

(** A string of whitespace only; the empty string is one. *)
Definition blank (s : str) : Prop := Forall (fun c => isspace c = true) s.

(** [sub] occurs in [s]. *)
Definition mentions (s sub : str) : Prop := exists pre post, s = pre ++ sub ++ post.

Definition invalid_role_detail : str :=
  lit "Invalid role. Only 'user' and 'assistant' are allowed.".

(** The detail of the model-not-found error for a catalog. *)
Definition not_found_detail (requested : option str) (catalog : list str) : str :=
  lit "Model '" ++ fmt_optional requested
  ++ lit "' not found. Available: " ++ join (lit ", ") catalog.

(** The line the outer handler logs for an exception. *)
Definition error_line (e : exn) : event :=
  LogError (lit "AI Error: " ++ exn_type_name e ++ lit ": " ++ exn_str e).

(** What the outer handler raises in place of an exception that is no
    [HTTPException]. *)
Definition generic_failure (e : exn) : exn :=
  if contains (lit "Cloudflare") (exn_str e)
  then HTTPException 503 (lit "AI service is temporarily blocked")
  else HTTPException 500 (lit "AI processing failed").

(** The line logged for an answer. *)
Definition responded (resp : ChatResponse) : event :=
  LogInfo (lit "AI responded | Provider: " ++ used_provider resp
           ++ lit ", Length: " ++ of_nat (length (response resp))).

(** The status codes of the [raise] sites of [chat_with_ai], and 200. *)
Definition chat_statuses : list Z := [200; 400; 500; 502; 503; 504].

(** ** A small engine to run the handlers on *)

Module Sample.

Definition namespace : gmap str pyobj :=
  <[lit "gpt_4o_mini" := PyObject (lit "g4f.models.gpt_4o_mini")]>
  (<[lit "llama_3" := PyObject (lit "llama_3")]>
  (<[lit "__name__" := PyString (lit "g4f.models")]> ∅)).

Definition run (t : Q) (out : result (option str)) (p : provider_attr) : engine_run :=
  {| elapsed := t; produced := out; provider_after := p |}.

Definition engine (hook : option exn) (r : engine_run) : g4f :=
  {| models := {| attrs := namespace; dir_raises := hook |};
     create_async := fun _ _ => r |}.

Definition request (h : option (list Message)) (name : option str) : ChatRequest :=
  {| message := lit "hi"; history := h; model := name |}.

Definition turn (r c : string) : Message := {| role := lit r; content := lit c |}.

End Sample.

(** Membership in a list that is written out. *)
Ltac in_list :=
  repeat first [apply list_elem_of_here | apply list_elem_of_further].

(** Unfolds the handler monad. *)
Ltac run_handler :=
  unfold chat, answer, trace, chat_with_ai, validate_history, resolve_model,
    call_engine, on_error, try_except, emit, eval,
    mbind, M_bind, mret, M_ret, mthrow, M_throw in *;
  simpl in *.

(** * Facts about the string operations *)

Module PyStrFacts.

Lemma startswith_prefix (p s : str) :
  startswith p s = true <-> (exists rest, s = p ++ rest).
Proof.
  revert s. induction p as [|a p IH]; intros s; simpl.
  - split; [intros _; by exists s | done].
  - destruct s as [|b s].
    + split; [done | intros [rest Hrest]; discriminate].
    + rewrite andb_true_iff, N.eqb_eq, IH. split.
      * intros [-> [rest ->]]. by exists rest.
      * intros [rest Hrest]. injection Hrest as -> ->. eauto.
Qed.

(** [needle in hay] holds exactly when [needle] occurs as a substring. *)
Lemma contains_substring (needle hay : str) :
  contains needle hay = true <-> (exists pre post, hay = pre ++ needle ++ post).
Proof.
  induction hay as [|c hay IH]; simpl; rewrite orb_true_iff, startswith_prefix.
  - split.
    + intros [[rest Hrest] | ?]; [by exists [], rest | done].
    + intros (pre & post & H). left. symmetry in H.
      apply app_eq_nil in H as [-> H]. by exists post.
  - rewrite IH. split.
    + intros [[rest Hrest] | (pre & post & ->)]; [by exists [], rest |].
      by exists (c :: pre), post.
    + intros (pre & post & H). destruct pre as [|c' pre]; simpl in H.
      * left. by exists post.
      * right. injection H as -> ->. by exists pre, post.
Qed.

Lemma replace_length a b s : length (replace a b s) = length s.
Proof. unfold replace. by rewrite length_fmap. Qed.

Lemma replace_lookup a b s i :
  replace a b s !! i = (fun c => if N.eqb c a then b else c) <$> s !! i.
Proof. unfold replace. by rewrite list_lookup_fmap. Qed.

Lemma split_nonempty sep s : split sep s <> [].
Proof.
  destruct s as [|c s]; simpl; [done|].
  destruct (N.eqb c sep); [done|]. by destruct (split sep s).
Qed.

(** [split] cuts [s] at every separator: the segments hold none, and gluing
    them back with the separator gives [s]. *)
Lemma split_segments sep s :
  exists init seg,
    split sep s = init ++ [seg] /\
    Forall (fun x => sep ∉ x) (init ++ [seg]) /\
    s = concat ((fun x => x ++ [sep]) <$> init) ++ seg.
Proof.
  induction s as [|c s (init & seg & Hsplit & Hfree & Hs)]; simpl.
  - exists [], []. split_and!; [done | | done].
    constructor; [apply not_elem_of_nil | constructor].
  - destruct (N.eqb_spec c sep) as [->|Hc].
    + exists ([] :: init), seg. rewrite Hsplit. split_and!; [done | |].
      * constructor; [apply not_elem_of_nil | done].
      * simpl. by f_equal.
    + rewrite Hsplit. destruct init as [|seg0 init]; simpl in *.
      * exists [], (c :: seg). split_and!; [done | | simpl; by f_equal].
        constructor; [| constructor]. apply Forall_inv in Hfree.
        rewrite elem_of_cons. intros [?|?]; [congruence | done].
      * exists ((c :: seg0) :: init), seg. split_and!; [done | |].
        -- apply Forall_cons in Hfree as [Hseg0 Hfree]. constructor; [| done].
           rewrite elem_of_cons. intros [?|?]; [congruence | done].
        -- simpl. by f_equal.
Qed.

(** The last segment of [split]: what follows the last separator, or the
    whole string when it has none. *)
Lemma split_last sep s :
  exists seg, last (split sep s) = Some seg /\ (sep ∉ seg) /\
    (s = seg \/ (exists pre, s = pre ++ sep :: seg)).
Proof.
  destruct (split_segments sep s) as (init & seg & Hsplit & Hfree & Hs).
  exists seg. rewrite Hsplit, last_snoc. split_and!; [done | |].
  - apply Forall_app in Hfree as [_ Hseg]. by apply Forall_inv in Hseg.
  - destruct init as [|seg0 init _] using rev_ind; [by left|].
    right. exists (concat ((fun x => x ++ [sep]) <$> init) ++ seg0).
    rewrite Hs, fmap_app, concat_app. simpl. by rewrite app_nil_r, <- !app_assoc.
Qed.

Lemma join_mentions sep (l : list str) id :
  id ∈ l -> (exists pre post, join sep l = pre ++ id ++ post).
Proof.
  induction l as [|s l IH]; [by intros ?%elem_of_nil|].
  intros [->|Hin]%elem_of_cons.
  - destruct l as [|s' l]; simpl.
    + exists [], []. by rewrite app_nil_r.
    + by exists [], (sep ++ join sep (s' :: l)).
  - destruct (IH Hin) as (pre & post & Heq).
    destruct l as [|s' l]; [by apply elem_of_nil in Hin|].
    exists (s ++ sep ++ pre), post.
    change (join sep (s :: s' :: l)) with (s ++ sep ++ join sep (s' :: l)).
    rewrite Heq. by rewrite <- !app_assoc.
Qed.

Lemma lstrip_blank s : blank s -> lstrip s = [].
Proof. induction 1 as [|c s Hc _ IH]; simpl; [done | by rewrite Hc]. Qed.

Lemma lstrip_cut s :
  exists ws, s = ws ++ lstrip s /\ blank ws /\
    (forall c, head (lstrip s) = Some c -> isspace c = false).
Proof.
  induction s as [|c s (ws & Hs & Hws & Hhead)]; simpl.
  - exists []. split_and!; [done | constructor | done].
  - destruct (isspace c) eqn:Hc.
    + exists (c :: ws). split_and!; [simpl; by f_equal | by constructor | done].
    + exists []. split_and!; [done | constructor |].
      simpl. by intros ? [= <-].
Qed.

Lemma rstrip_cut s :
  exists ws, s = rstrip s ++ ws /\ blank ws /\
    (forall c, last (rstrip s) = Some c -> isspace c = false).
Proof.
  unfold rstrip.
  destruct (lstrip_cut (reverse s)) as (ws & Hs & Hws & Hhead).
  exists (reverse ws). split_and!.
  - rewrite <- reverse_app, <- Hs. by rewrite reverse_involutive.
  - unfold blank. by rewrite Forall_reverse.
  - intros c. rewrite last_reverse. apply Hhead.
Qed.

(** [strip] cuts a run of whitespace off each end, and what it leaves
    neither starts nor ends with whitespace. *)
Lemma strip_cut s :
  exists ws1 ws2, s = ws1 ++ strip s ++ ws2 /\ blank ws1 /\ blank ws2 /\
    (forall c, head (strip s) = Some c -> isspace c = false) /\
    (forall c, last (strip s) = Some c -> isspace c = false).
Proof.
  unfold strip.
  destruct (lstrip_cut s) as (ws1 & Hs & Hws1 & Hhead).
  destruct (rstrip_cut (lstrip s)) as (ws2 & Ht & Hws2 & Hlast).
  exists ws1, ws2. split_and!; [by rewrite <- Ht | done | done | | done].
  intros c Hc. apply Hhead. rewrite Ht.
  destruct (rstrip (lstrip s)); [done | exact Hc].
Qed.

Lemma strip_blank s : blank s -> strip s = [].
Proof. intros Hs. unfold strip. by rewrite (lstrip_blank s Hs). Qed.


End PyStrFacts.

(** * Facts about the engine's namespace *)

Section Namespace.

Variable m : pymodule.

#[local] Instance le_total : Total PyStr.le.
Proof.
  intros s. unfold PyStr.le. induction s as [|a s IH]; intros [|b t]; simpl; auto.
  destruct (N.ltb_spec a b), (N.ltb_spec b a), (N.eqb_spec a b), (N.eqb_spec b a);
    simpl; auto; try lia; try congruence.
Qed.

(** [dir] lists every attribute once, in sorted order. *)
Lemma dir_names names :
  dir m = Ok names ->
  NoDup names /\ Sorted PyStr.le names /\
  (forall n, n ∈ names <-> is_Some (attrs m !! n)).
Proof.
  unfold dir. destruct (dir_raises m); [done|]. intros [= <-].
  pose proof (merge_sort_Permutation PyStr.le (elements (dom (attrs m)))) as Hperm.
  split_and!.
  - rewrite Hperm. apply NoDup_elements.
  - apply (Sorted_merge_sort _).
  - intros n. by rewrite Hperm, elem_of_elements, elem_of_dom.
Qed.

Lemma dir_total : dir_raises m = None -> exists names, dir m = Ok names.
Proof. unfold dir. intros ->. eauto. Qed.

Lemma dir_fails e : dir m = Raise e <-> dir_raises m = Some e.
Proof. unfold dir. destruct (dir_raises m); split; congruence. Qed.

End Namespace.

Lemma public_elem names n :
  n ∈ public names <-> n ∈ names /\ startswith (lit "_") n = false.
Proof.
  unfold public. by rewrite !list_elem_of_In, filter_In, negb_true_iff.
Qed.

Lemma public_NoDup names : NoDup names -> NoDup (public names).
Proof.
  unfold public. rewrite !NoDup_ListNoDup. apply List.NoDup_filter.
Qed.

(** The catalog: the identifiers [GET /api/models] and the model-not-found
    error enumerate. A name is in it exactly when it is an attribute of
    [g4f.models] that does not start with an underscore. *)
Lemma catalog_elem (m : pymodule) names n :
  dir m = Ok names ->
  n ∈ public names <-> is_Some (attrs m !! n) /\ startswith (lit "_") n = false.
Proof.
  intros (_ & _ & Hin)%dir_names. by rewrite public_elem, Hin.
Qed.

(** * The steps of [chat_with_ai] *)

Section Steps.

Variable g : g4f.

Lemma check_roles_pass h tr : Forall allowed h -> check_roles h tr = (Ok tt, tr).
Proof.
  induction 1 as [|msg h Hmsg _ IH]; simpl; [done|].
  by rewrite bool_decide_eq_true_2.
Qed.

Lemma check_roles_fail h tr :
  Exists (fun msg => ~ allowed msg) h ->
  check_roles h tr = (Raise (HTTPException 400 invalid_role_detail), tr).
Proof.
  induction 1 as [msg h Hmsg | msg h _ IH]; simpl.
  - by rewrite bool_decide_eq_false_2.
  - destruct (bool_decide _); [by rewrite IH | done].
Qed.

Lemma check_roles_inv h tr r tr' :
  check_roles h tr = (r, tr') ->
  tr' = tr /\
  (r = Ok tt /\ Forall allowed h \/
   r = Raise (HTTPException 400 invalid_role_detail) /\
   Exists (fun msg => ~ allowed msg) h).
Proof.
  destruct (decide (Forall allowed h)) as [Hall|Hex].
  - rewrite check_roles_pass by done. intros [= <- <-]. auto.
  - apply not_Forall_Exists in Hex; [|intros msg; unfold allowed; apply _].
    rewrite check_roles_fail by done. intros [= <- <-]. auto.
Qed.

(** Validation passes exactly on a history that is a list of allowed
    roles. *)
Lemma validate_history_pass o h :
  answer (validate_history o) = Ok h <-> o = Some h /\ Forall allowed h.
Proof.
  run_handler. destruct o as [l|]; simpl; [|split; [done | by intros [? _]]].
  destruct (check_roles l []) as [r tr'] eqn:Hrun.
  apply check_roles_inv in Hrun as [-> [[-> Hall] | [-> Hex]]]; simpl.
  - split; [by intros [= <-] | by intros [[= <-] _]].
  - split; [done | intros [[= <-] Hall]].
    apply Exists_exists in Hex as (msg & Hin & Hmsg).
    by rewrite Forall_forall in Hall; specialize (Hall msg Hin).
Qed.

Lemma validate_history_run o tr :
  validate_history o tr = (answer (validate_history o), tr).
Proof.
  run_handler. destruct o as [l|]; simpl; [|done].
  destruct (check_roles l tr) as [r tr1] eqn:H1.
  destruct (check_roles l []) as [r' tr2] eqn:H2.
  apply check_roles_inv in H1 as [-> H1], H2 as [-> H2].
  destruct H1 as [[-> Hall] | [-> Hex]], H2 as [[-> Hall'] | [-> Hex']]; simpl; try done.
  - apply Exists_exists in Hex' as (msg & Hin & Hmsg).
    by rewrite Forall_forall in Hall; specialize (Hall msg Hin).
  - apply Exists_exists in Hex as (msg & Hin & Hmsg).
    by rewrite Forall_forall in Hall'; specialize (Hall' msg Hin).
Qed.

(** Resolution leaves no trace. *)
Lemma resolve_model_run o tr :
  resolve_model g o tr = (answer (resolve_model g o), tr).
Proof.
  run_handler. destruct o as [name|]; simpl.
  - unfold getattr. destruct (attrs (models g) !! replace 45 95 name); simpl; [done|].
    by destruct (dir (models g)).
  - by destruct (dir (models g)).
Qed.

Lemma resolve_model_found name model :
  attrs (models g) !! replace 45 95 name = Some model ->
  answer (resolve_model g (Some name)) = Ok model.
Proof. intros Hget. run_handler. unfold getattr. by rewrite Hget. Qed.

(** A requested name that is [None] or no attribute of the namespace
    ends in the model-not-found error, or in what [dir] raises. *)
Lemma resolve_model_missing o :
  (forall name, o = Some name -> attrs (models g) !! replace 45 95 name = None) ->
  answer (resolve_model g o) =
    match dir (models g) with
    | Ok names => Raise (HTTPException 400 (not_found_detail o (public names)))
    | Raise e => Raise e
    end.
Proof.
  intros Hnone. run_handler. destruct o as [name|]; simpl.
  - unfold getattr. rewrite (Hnone name eq_refl). simpl.
    by destruct (dir (models g)).
  - by destruct (dir (models g)).
Qed.

Lemma resolve_model_inv o model :
  answer (resolve_model g o) = Ok model ->
  exists name, o = Some name /\ attrs (models g) !! replace 45 95 name = Some model.
Proof.
  run_handler. destruct o as [name|]; simpl.
  - unfold getattr. destruct (attrs (models g) !! replace 45 95 name) eqn:Hget; simpl.
    + intros [= <-]. eauto.
    + by destruct (dir (models g)).
  - by destruct (dir (models g)).
Qed.

(** The awaited call: one [EngineCall] in the trace, and the timeout turned
    into a 504. *)
Lemma call_engine_run model messages tr :
  call_engine g model messages tr =
    (match wait_for (create_async g model messages) 30 with
     | Ok r => Ok (r, provider_after (create_async g model messages))
     | Raise e =>
         if is_TimeoutError e
         then Raise (HTTPException 504 (lit "AI response timed out"))
         else Raise e
     end, tr ++ [EngineCall model messages]).
Proof.
  run_handler. destruct (wait_for _ _) as [r|e]; simpl; [done|].
  by destruct (is_TimeoutError e).
Qed.

End Steps.

(** [display_model] never raises: [split] always has a last segment, which
    is what follows the last dot of [str(model)]. *)
Lemma display_model_segment (model : pyobj) :
  exists seg,
    display_model model = Ok (replace 95 45 seg) /\ (46%N ∉ seg) /\
    (py_str model = seg \/ (exists pre, py_str model = pre ++ 46%N :: seg)).
Proof.
  destruct (PyStrFacts.split_last 46 (py_str model)) as (seg & Hlast & Hfree & Hs).
  exists seg. unfold display_model, last_item. by rewrite Hlast.
Qed.

Section Unfold.

Variables (g : g4f) (request : ChatRequest).

(** The handler, one step after the other. *)
Lemma chat_with_ai_unfold tr :
  chat_with_ai g request tr =
    let tr0 := tr ++ [received request] in
    match answer (validate_history (history request)) with
    | Raise e => (Raise e, tr0)
    | Ok h =>
        match answer (resolve_model g (model request)) with
        | Raise e => on_error e tr0
        | Ok model =>
            let messages := build_messages h (message request) in
            let run := create_async g model messages in
            let tr1 := tr0 ++ [EngineCall model messages] in
            match wait_for run 30 with
            | Raise e =>
                on_error (if is_TimeoutError e
                          then HTTPException 504 (lit "AI response timed out")
                          else e) tr1
            | Ok None => on_error (HTTPException 502 (lit "Empty response from AI")) tr1
            | Ok (Some out) =>
                if is_blank (Some out)
                then on_error (HTTPException 502 (lit "Empty response from AI")) tr1
                else
                  match display_model model with
                  | Raise e => on_error e tr1
                  | Ok shown =>
                      let provider := provider_name (provider_after run) in
                      (Ok {| response := strip out;
                             used_model := shown;
                             used_provider := provider |},
                       tr1 ++ [LogInfo (lit "AI responded | Provider: " ++ provider
                                        ++ lit ", Length: "
                                        ++ of_nat (length (strip out)))])
                  end
            end
        end
    end.
Proof.
  unfold chat_with_ai at 1. unfold mbind, M_bind, emit at 1. simpl.
  rewrite validate_history_run.
  destruct (answer (validate_history (history request))) as [h|e]; [|done].
  unfold try_except at 1. unfold mbind, M_bind.
  rewrite resolve_model_run.
  destruct (answer (resolve_model g (model request))) as [model|e]; [|done].
  rewrite call_engine_run.
  destruct (wait_for _ _) as [[out|]|e]; simpl; try done.
  - destruct (falsy out || falsy (strip out)); simpl; [done|].
    unfold eval. by destruct (display_model model).
  - by destruct (is_TimeoutError e).
Qed.

End Unfold.

(** * The outer handler *)

Lemma on_error_http {A} s d tr :
  @on_error A (HTTPException s d) tr = (Raise (HTTPException s d), tr).
Proof. done. Qed.


Lemma engine_calls_app tr1 tr2 :
  engine_calls (tr1 ++ tr2) = engine_calls tr1 ++ engine_calls tr2.
Proof. unfold engine_calls. apply omap_app. Qed.

(** The outer handler logs, but never calls the engine. *)
Lemma on_error_calls {A} e tr :
  engine_calls (snd (@on_error A e tr)) = engine_calls tr.
Proof.
  unfold on_error. destruct (is_HTTPException e); [done|]. run_handler.
  destruct (contains _ _); simpl; rewrite engine_calls_app; simpl; apply app_nil_r.
Qed.

Section Outcomes.

Variables (g : g4f) (request : ChatRequest).

(** A request that validation turns down never reaches the engine. *)
Lemma rejected_by_validation e :
  answer (validate_history (history request)) = Raise e ->
  chat g request = Raise e /\ engine_calls (trace (chat_with_ai g request)) = [].
Proof.
  intros Hval. unfold chat, answer, trace.
  rewrite chat_with_ai_unfold. simpl. by rewrite Hval.
Qed.

(** Nor does one whose mdl does not resolve; the outer handler decides
    what the caller sees. *)
Lemma rejected_by_resolution h e :
  answer (validate_history (history request)) = Ok h ->
  answer (resolve_model g (model request)) = Raise e ->
  chat g request = fst (@on_error ChatResponse e []) /\
  engine_calls (trace (chat_with_ai g request)) = [].
Proof.
  intros Hval Hres. unfold chat, answer, trace.
  rewrite chat_with_ai_unfold. simpl. rewrite Hval, Hres. split.
  - unfold on_error. destruct (is_HTTPException e); [done|]. run_handler.
    by destruct (contains _ _).
  - by rewrite on_error_calls.
Qed.

(** Once the mdl resolves, the engine is called once, with the messages
    built from the history. *)
Lemma engine_called_once h mdl :
  answer (validate_history (history request)) = Ok h ->
  answer (resolve_model g (model request)) = Ok mdl ->
  engine_calls (trace (chat_with_ai g request)) =
    [(mdl, build_messages h (message request))].
Proof.
  intros Hval Hres. unfold trace. rewrite chat_with_ai_unfold. simpl.
  rewrite Hval, Hres.
  destruct (wait_for _ _) as [[out|]|e]; try by rewrite on_error_calls.
  destruct (falsy out || falsy (strip out)); [by rewrite on_error_calls|].
  destruct (display_model mdl); [|by rewrite on_error_calls].
  done.
Qed.

(** What the caller sees once the awaited call has an outcome. *)
Lemma chat_after_call h mdl :
  answer (validate_history (history request)) = Ok h ->
  answer (resolve_model g (model request)) = Ok mdl ->
  let run := create_async g mdl (build_messages h (message request)) in
  chat g request =
    match wait_for run 30 with
    | Raise e =>
        fst (@on_error ChatResponse
               (if is_TimeoutError e
                then HTTPException 504 (lit "AI response timed out") else e) [])
    | Ok None => Raise (HTTPException 502 (lit "Empty response from AI"))
    | Ok (Some out) =>
        if is_blank (Some out)
        then Raise (HTTPException 502 (lit "Empty response from AI"))
        else
          match display_model mdl with
          | Raise e => fst (@on_error ChatResponse e [])
          | Ok shown =>
              Ok {| response := strip out;
                    used_model := shown;
                    used_provider := provider_name (provider_after run) |}
          end
    end.
Proof.
  intros Hval Hres run. unfold chat, answer.
  rewrite chat_with_ai_unfold. simpl. rewrite Hval, Hres. fold run.
  assert (Hfst : forall e tr, fst (@on_error ChatResponse e tr) = fst (@on_error ChatResponse e [])).
  { intros e tr. unfold on_error. destruct (is_HTTPException e); [done|].
    run_handler. by destruct (contains _ _). }
  destruct (wait_for run 30) as [[out|]|e]; [| done | apply Hfst].
  simpl. destruct (falsy out || falsy (strip out)); [done|].
  destruct (display_model mdl); [done | apply Hfst].
Qed.

(** A successful answer, read backwards. *)
Lemma chat_success_inv resp :
  chat g request = Ok resp ->
  exists h name mdl out shown,
    history request = Some h /\ Forall allowed h /\
    model request = Some name /\
    attrs (models g) !! replace 45 95 name = Some mdl /\
    wait_for (create_async g mdl (build_messages h (message request))) 30
      = Ok (Some out) /\
    is_blank (Some out) = false /\
    display_model mdl = Ok shown /\
    resp = {| response := strip out;
              used_model := shown;
              used_provider :=
                provider_name
                  (provider_after
                     (create_async g mdl (build_messages h (message request)))) |}.
Proof.
  intros Hok.
  destruct (answer (validate_history (history request))) as [h|e] eqn:Hval.
  2:{ apply rejected_by_validation in Hval as [Hval _]. congruence. }
  destruct (answer (resolve_model g (model request))) as [mdl|e] eqn:Hres.
  2:{ apply (rejected_by_resolution h) in Hres as [Hres _]; [|done].
      rewrite Hres in Hok. unfold on_error in Hok.
      destruct (is_HTTPException e); [done|]. run_handler.
      by destruct (contains _ _). }
  rewrite (chat_after_call h mdl Hval Hres) in Hok.
  apply validate_history_pass in Hval as [Hh Hall].
  apply resolve_model_inv in Hres as (name & Hname & Hget).
  assert (Hnot : forall e, fst (@on_error ChatResponse e []) <> Ok resp).
  { intros e. unfold on_error. destruct (is_HTTPException e); [done|].
    run_handler. by destruct (contains _ _). }
  destruct (wait_for _ _) as [[out|]|e] eqn:Hwait; [| done | by apply Hnot in Hok].
  destruct (is_blank (Some out)) eqn:Hblank; [done|].
  destruct (display_model mdl) as [shown|e] eqn:Hshown; [|by apply Hnot in Hok].
  injection Hok as <-. by exists h, name, mdl, out, shown.
Qed.

End Outcomes.

(** * The contract of [POST /api/chat] and [GET /api/models] *)

Lemma allowed_roles msg :
  allowed msg <-> role msg = lit "user" \/ role msg = lit "assistant".
Proof.
  unfold allowed. rewrite !elem_of_cons, elem_of_nil. tauto.
Qed.

(** C2: a request whose history holds an entry with a role other than
    "user" and "assistant" fails with status 400, and the engine is not
    called on it. *)
Theorem invalid_role_rejected (g : g4f) (request : ChatRequest) (h : list Message) :
  history request = Some h ->
  Exists (fun msg => role msg <> lit "user" /\ role msg <> lit "assistant") h ->
  chat g request = Raise (HTTPException 400 invalid_role_detail) /\
  http_status (chat g request) = 400 /\
  engine_calls (trace (chat_with_ai g request)) = [].
Proof.
  intros Hh Hbad.
  assert (Hval : answer (validate_history (history request))
                 = Raise (HTTPException 400 invalid_role_detail)).
  { rewrite Hh. unfold answer, validate_history, mbind, M_bind.
    rewrite check_roles_fail; [done|].
    eapply Exists_impl; [exact Hbad|]. intros msg [? ?] [?|?]%allowed_roles; done. }
  destruct (rejected_by_validation g request _ Hval) as [Hchat Hcalls].
  by rewrite Hchat.
Qed.

Lemma invalid_role_rejected_witness :
  let g := Sample.engine None (Sample.run 1 (Ok (Some (lit "pong"))) NoProvider) in
  let request := Sample.request (Some [Sample.turn "user" "a"; Sample.turn "system" "b"])
                   (Some (lit "gpt-4o-mini")) in
  chat g request = Raise (HTTPException 400 invalid_role_detail) /\
  http_status (chat g request) = 400 /\
  engine_calls (trace (chat_with_ai g request)) = [].
Proof.
  intros g request.
  apply (invalid_role_rejected g request
           [Sample.turn "user" "a"; Sample.turn "system" "b"]).
  - reflexivity.
  - apply Exists_cons_tl, Exists_cons_hd. split; vm_compute; discriminate.
Defined.

(** C6: for a request that passes role validation, the message list the
    engine receives is the history, entry by entry in its order with role
    and content kept, followed by one entry with role "user" and the
    request's message as content. *)
Theorem messages_sent_to_engine (g : g4f) (request : ChatRequest) (h : list Message) :
  history request = Some h ->
  Forall allowed h ->
  let sent := build_messages h (message request) in
  (length sent = S (length h) /\
   (forall i msg, h !! i = Some msg ->
      sent !! i = Some [(lit "role", role msg); (lit "content", content msg)]) /\
   sent !! length h = Some [(lit "role", lit "user"); (lit "content", message request)]) /\
  (forall mdl ms,
     (mdl, ms) ∈ engine_calls (trace (chat_with_ai g request)) -> ms = sent) /\
  (forall mdl,
     answer (resolve_model g (model request)) = Ok mdl ->
     engine_calls (trace (chat_with_ai g request)) = [(mdl, sent)]).
Proof.
  intros Hh Hall sent.
  assert (Hval : answer (validate_history (history request)) = Ok h)
    by by apply validate_history_pass.
  split_and!.
  - unfold sent, build_messages. rewrite length_app, length_fmap. simpl. lia.
  - intros i msg Hi. unfold sent, build_messages.
    rewrite lookup_app_l by (rewrite length_fmap; by eapply lookup_lt_Some).
    by rewrite list_lookup_fmap, Hi.
  - unfold sent, build_messages.
    rewrite lookup_app_r by (by rewrite length_fmap).
    by rewrite length_fmap, Nat.sub_diag.
  - intros mdl ms Hin.
    destruct (answer (resolve_model g (model request))) as [mdl'|e] eqn:Hres.
    + rewrite (engine_called_once g request h mdl' Hval Hres) in Hin.
      apply list_elem_of_singleton in Hin. by injection Hin as _ ->.
    + destruct (rejected_by_resolution g request h e Hval Hres) as [_ Hnone].
      rewrite Hnone in Hin. by apply elem_of_nil in Hin.
  - intros mdl Hres. by apply engine_called_once.
Qed.

Lemma messages_sent_to_engine_witness :
  let g := Sample.engine None (Sample.run 1 (Ok (Some (lit "pong"))) NoProvider) in
  let h := [Sample.turn "user" "a"; Sample.turn "assistant" "b"] in
  let request := Sample.request (Some h) (Some (lit "gpt-4o-mini")) in
  engine_calls (trace (chat_with_ai g request)) =
    [(PyObject (lit "g4f.models.gpt_4o_mini"),
      [[(lit "role", lit "user"); (lit "content", lit "a")];
       [(lit "role", lit "assistant"); (lit "content", lit "b")];
       [(lit "role", lit "user"); (lit "content", lit "hi")]])].
Proof.
  intros g h request.
  assert (Hall : Forall allowed h).
  { apply Forall_cons; split; [apply allowed_roles; by left|].
    apply Forall_cons; split; [apply allowed_roles; by right | apply Forall_nil_2]. }
  destruct (messages_sent_to_engine g request h eq_refl Hall) as (_ & _ & Honce).
  apply (Honce (PyObject (lit "g4f.models.gpt_4o_mini"))).
  vm_compute. reflexivity.
Defined.

Lemma validated_resolved (g : g4f) (request : ChatRequest) h name mdl :
  history request = Some h -> Forall allowed h ->
  model request = Some name ->
  attrs (models g) !! replace 45 95 name = Some mdl ->
  answer (validate_history (history request)) = Ok h /\
  answer (resolve_model g (model request)) = Ok mdl.
Proof.
  intros Hh Hall Hname Hget. split.
  - by apply validate_history_pass.
  - rewrite Hname. by apply resolve_model_found.
Qed.





(** C5: when the engine call returns the empty string or a string of
    whitespace only, the request fails with status 502. *)
Theorem blank_response_rejected (g : g4f) (request : ChatRequest) h name mdl out :
  history request = Some h -> Forall allowed h ->
  model request = Some name ->
  attrs (models g) !! replace 45 95 name = Some mdl ->
  wait_for (create_async g mdl (build_messages h (message request))) 30
    = Ok (Some out) ->
  out = [] \/ blank out ->
  chat g request = Raise (HTTPException 502 (lit "Empty response from AI")) /\
  http_status (chat g request) = 502.
Proof.
  intros Hh Hall Hname Hget Hwait Hout.
  destruct (validated_resolved g request h name mdl Hh Hall Hname Hget)
    as [Hval Hres].
  rewrite (chat_after_call g request h mdl Hval Hres), Hwait.
  assert (Hblank : is_blank (Some out) = true).
  { simpl. destruct Hout as [->|Hout]; [done|].
    rewrite (PyStrFacts.strip_blank out Hout). apply orb_true_r. }
  by rewrite Hblank.
Qed.

Lemma blank_response_rejected_witness :
  let g := Sample.engine None (Sample.run 2 (Ok (Some [32; 9; 10; 160]%N)) NoProvider) in
  let request := Sample.request (Some []) (Some (lit "llama-3")) in
  chat g request = Raise (HTTPException 502 (lit "Empty response from AI")) /\
  http_status (chat g request) = 502.
Proof.
  intros g request.
  apply (blank_response_rejected g request [] (lit "llama-3")
           (PyObject (lit "llama_3")) [32; 9; 10; 160]%N);
    [reflexivity | apply Forall_nil_2 | reflexivity | reflexivity | reflexivity |].
  right. unfold blank. repeat (apply Forall_cons; split; [reflexivity|]).
  apply Forall_nil_2.
Defined.

(** C7: on success the [response] field is the output of the engine with
    the whitespace at both ends removed, so it is not empty, and the [model]
    field is what follows the last dot of the string form of the resolved
    model, with underscores turned into hyphens. *)
Theorem success_response (g : g4f) (request : ChatRequest) (resp : ChatResponse) :
  chat g request = Ok resp ->
  http_status (chat g request) = 200 /\
  exists h name mdl out,
    history request = Some h /\ model request = Some name /\
    attrs (models g) !! replace 45 95 name = Some mdl /\
    wait_for (create_async g mdl (build_messages h (message request))) 30
      = Ok (Some out) /\
    response resp = strip out /\
    response resp <> [] /\
    (exists ws1 ws2,
       out = ws1 ++ response resp ++ ws2 /\ blank ws1 /\ blank ws2 /\
       (forall c, head (response resp) = Some c -> isspace c = false) /\
       (forall c, last (response resp) = Some c -> isspace c = false)) /\
    (exists seg,
       used_model resp = replace 95 45 seg /\ (46%N ∉ seg) /\
       (py_str mdl = seg \/ (exists pre, py_str mdl = pre ++ 46%N :: seg))).
Proof.
  intros Hok. split; [by rewrite Hok|].
  destruct (chat_success_inv g request resp Hok)
    as (h & name & mdl & out & shown & Hh & _ & Hname & Hget & Hwait & Hblank & Hshown & ->).
  exists h, name, mdl, out. simpl. split_and!; try done.
  - simpl in Hblank. apply orb_false_iff in Hblank as [_ Hstrip].
    by destruct (strip out).
  - destruct (PyStrFacts.strip_cut out) as (ws1 & ws2 & ?). by exists ws1, ws2.
  - destruct (display_model_segment mdl) as (seg & Hseg & Hfree & Hsplit).
    exists seg. split_and!; [congruence | done | done].
Qed.

Lemma success_response_witness :
  let g := Sample.engine None (Sample.run 2 (Ok (Some (lit "  pong ")))
                                 (Provider (Some (lit "Bing")))) in
  let request := ChatRequest_default (lit "ping") in
  chat g request =
    Ok {| response := lit "pong";
          used_model := lit "gpt-4o-mini";
          used_provider := lit "Bing" |} /\
  http_status (chat g request) = 200.
Proof.
  intros g request.
  assert (Hok : chat g request =
    Ok {| response := lit "pong"; used_model := lit "gpt-4o-mini";
          used_provider := lit "Bing" |}) by reflexivity.
  split; [exact Hok|]. exact (proj1 (success_response g request _ Hok)).
Defined.

(** C8: on success the [provider] field is the provider name read from the
    engine when it has one, "Unknown" when the engine has no provider
    attribute, and "Auto" when reading the name raises. *)
Theorem provider_field (g : g4f) (request : ChatRequest) (resp : ChatResponse) :
  chat g request = Ok resp ->
  exists h name mdl,
    history request = Some h /\ model request = Some name /\
    attrs (models g) !! replace 45 95 name = Some mdl /\
    match provider_after (create_async g mdl (build_messages h (message request))) with
    | NoProvider => used_provider resp = lit "Unknown"
    | Provider (Some provider) => used_provider resp = provider
    | Provider None => used_provider resp = lit "Auto"
    end.
Proof.
  intros Hok.
  destruct (chat_success_inv g request resp Hok)
    as (h & name & mdl & out & shown & Hh & _ & Hname & Hget & _ & _ & _ & ->).
  exists h, name, mdl. split_and!; try done. simpl.
  by destruct (provider_after _) as [|[?|]].
Qed.

Lemma provider_field_witness :
  let answer_with p :=
    chat (Sample.engine None (Sample.run 2 (Ok (Some (lit "pong"))) p))
         (ChatRequest_default (lit "ping")) in
  (exists resp, answer_with NoProvider = Ok resp /\ used_provider resp = lit "Unknown") /\
  (exists resp, answer_with (Provider (Some (lit "Bing"))) = Ok resp /\
                used_provider resp = lit "Bing") /\
  (exists resp, answer_with (Provider None) = Ok resp /\ used_provider resp = lit "Auto").
Proof.
  intros answer_with.
  assert (Hrun : forall p, exists resp, answer_with p = Ok resp) by (intros p; by eexists).
  split_and!.
  - destruct (Hrun NoProvider) as [resp Hok]. exists resp. split; [done|].
    by destruct (provider_field _ _ resp Hok) as (h & name & mdl & [= <-] & [= <-] & [= <-] & Hp).
  - destruct (Hrun (Provider (Some (lit "Bing")))) as [resp Hok]. exists resp. split; [done|].
    by destruct (provider_field _ _ resp Hok) as (h & name & mdl & [= <-] & [= <-] & [= <-] & Hp).
  - destruct (Hrun (Provider None)) as [resp Hok]. exists resp. split; [done|].
    by destruct (provider_field _ _ resp Hok) as (h & name & mdl & [= <-] & [= <-] & [= <-] & Hp).
Defined.

(** C9: [list_models] answers 200 with the public identifiers of the
    engine's catalog, each attribute name that does not start with an
    underscore and nothing else, and it fails with status 500 exactly when
    the enumeration raises. *)
Theorem list_models_catalog (g : g4f) :
  (forall names,
     dir (models g) = Ok names ->
     list_models g = Ok {| listed_models := public names |} /\
     http_status (list_models g) = 200 /\
     NoDup (public names) /\
     (forall n, n ∈ public names <->
                is_Some (attrs (models g) !! n) /\ startswith (lit "_") n = false)) /\
  (http_status (list_models g) = 500 <-> (exists e, dir (models g) = Raise e)) /\
  (list_models g = Raise (HTTPException 500 (lit "Could not retrieve models"))
   <-> (exists e, dir (models g) = Raise e)).
Proof.
  unfold list_models. split_and!.
  - intros names Hdir. rewrite Hdir. split_and!; [done | done | |].
    + apply public_NoDup. by apply (dir_names (models g)).
    + intros n. by apply catalog_elem.
  - destruct (dir (models g)) as [names|e]; simpl.
    + split; [done | by intros [? ?]].
    + split; [by exists e | done].
  - destruct (dir (models g)) as [names|e]; simpl.
    + split; [done | by intros [? ?]].
    + split; [by exists e | done].
Qed.

Lemma list_models_catalog_witness :
  list_models (Sample.engine None (Sample.run 1 (Ok None) NoProvider))
    = Ok {| listed_models := [lit "gpt_4o_mini"; lit "llama_3"] |} /\
  list_models (Sample.engine (Some (OtherError (lit "RuntimeError") (lit "boom")))
                 (Sample.run 1 (Ok None) NoProvider))
    = Raise (HTTPException 500 (lit "Could not retrieve models")).
Proof.
  split.
  - destruct (list_models_catalog (Sample.engine None (Sample.run 1 (Ok None) NoProvider)))
      as (H & _ & _).
    apply (H [lit "__name__"; lit "gpt_4o_mini"; lit "llama_3"]). reflexivity.
  - destruct (list_models_catalog
                (Sample.engine (Some (OtherError (lit "RuntimeError") (lit "boom")))
                   (Sample.run 1 (Ok None) NoProvider))) as (_ & _ & H).
    apply H. eexists. reflexivity.
Defined.

Lemma not_found_detail_mentions requested catalog id :
  id ∈ catalog -> mentions (not_found_detail requested catalog) id.
Proof.
  intros Hin.
  destruct (PyStrFacts.join_mentions (lit ", ") catalog id Hin) as (pre & post & Hjoin).
  exists (lit "Model '" ++ fmt_optional requested
          ++ lit "' not found. Available: " ++ pre), post.
  unfold not_found_detail. rewrite Hjoin. by rewrite <- !app_assoc.
Qed.

(** What decides the model-not-found error: the normalized name is [None]
    or no attribute of [g4f.models], and [dir] can list the catalog. *)
Lemma model_not_found (g : g4f) (request : ChatRequest) h names :
  history request = Some h -> Forall allowed h ->
  (forall name, model request = Some name ->
                attrs (models g) !! replace 45 95 name = None) ->
  dir (models g) = Ok names ->
  chat g request =
    Raise (HTTPException 400 (not_found_detail (model request) (public names))) /\
  engine_calls (trace (chat_with_ai g request)) = [].
Proof.
  intros Hh Hall Hnone Hdir.
  assert (Hval : answer (validate_history (history request)) = Ok h)
    by by apply validate_history_pass.
  pose proof (resolve_model_missing g (model request) Hnone) as Hres.
  rewrite Hdir in Hres.
  by destruct (rejected_by_resolution g request h _ Hval Hres) as [-> ->].
Qed.

(** C1, as the handler has it: after a history that passes validation, a
    model name that, with hyphens turned into underscores, does not start
    with an underscore and is not in the catalog fails with status 400, and
    the detail names every identifier of the catalog, the attributes of
    [g4f.models] that do not start with an underscore; the engine is not
    called. The catalog has to be enumerable. *)
Theorem unknown_model_rejected (g : g4f) (request : ChatRequest) h name names :
  history request = Some h -> Forall allowed h ->
  model request = Some name ->
  dir (models g) = Ok names ->
  startswith (lit "_") (replace 45 95 name) = false ->
  replace 45 95 name ∉ public names ->
  chat g request =
    Raise (HTTPException 400 (not_found_detail (Some name) (public names))) /\
  http_status (chat g request) = 400 /\
  (forall id, id ∈ public names ->
     mentions (not_found_detail (Some name) (public names)) id) /\
  (forall id, id ∈ public names <->
     is_Some (attrs (models g) !! id) /\ startswith (lit "_") id = false) /\
  engine_calls (trace (chat_with_ai g request)) = [].
Proof.
  intros Hh Hall Hname Hdir Hpublic Hout.
  assert (Hnone : forall name', model request = Some name' ->
                    attrs (models g) !! replace 45 95 name' = None).
  { intros name' Hname'. rewrite Hname in Hname'. injection Hname' as <-.
    apply eq_None_not_Some. intros Hsome. apply Hout.
    by apply (catalog_elem (models g)). }
  destruct (model_not_found g request h names Hh Hall Hnone Hdir) as [Hchat Hcalls].
  rewrite Hname in Hchat. rewrite Hchat. split_and!; try done.
  - intros id. apply not_found_detail_mentions.
  - intros id. by apply catalog_elem.
Qed.

Lemma unknown_model_rejected_witness :
  let g := Sample.engine None (Sample.run 1 (Ok (Some (lit "pong"))) NoProvider) in
  let request := Sample.request (Some []) (Some (lit "gpt-5")) in
  chat g request =
    Raise (HTTPException 400
             (lit "Model 'gpt-5' not found. Available: gpt_4o_mini, llama_3")) /\
  http_status (chat g request) = 400.
Proof.
  intros g request.
  assert (Hout : replace 45 95 (lit "gpt-5") ∉ [lit "gpt_4o_mini"; lit "llama_3"]).
  { rewrite list_elem_of_In. vm_compute. intros [H|[H|[]]]; discriminate. }
  destruct (unknown_model_rejected g request [] (lit "gpt-5")
              [lit "__name__"; lit "gpt_4o_mini"; lit "llama_3"]
              eq_refl (Forall_nil_2 _) eq_refl eq_refl eq_refl Hout)
    as (Hchat & Hstatus & _).
  split; [exact Hchat | exact Hstatus].
Defined.

(** C1 as stated fails on the handler: a name outside the catalog that is an
    underscore attribute of [g4f.models] resolves and the request succeeds;
    after a history that validation rejects, the 400 carries the role
    message, which names no model; and when [dir] raises, the answer is
    500. *)
Lemma unknown_model_counterexample :
  let g := Sample.engine None (Sample.run 1 (Ok (Some (lit "pong"))) NoProvider) in
  let catalog := [lit "gpt_4o_mini"; lit "llama_3"] in
  list_models g = Ok {| listed_models := catalog |} /\
  ((replace 45 95 (lit "__name__") ∉ catalog) /\
   chat g (Sample.request (Some []) (Some (lit "__name__"))) =
     Ok {| response := lit "pong";
           used_model := lit "models";
           used_provider := lit "Unknown" |}) /\
  ((replace 45 95 (lit "gpt-5") ∉ catalog) /\
   chat g (Sample.request (Some [Sample.turn "system" "s"]) (Some (lit "gpt-5"))) =
     Raise (HTTPException 400 invalid_role_detail) /\
   ~ mentions invalid_role_detail (lit "llama_3")) /\
  chat (Sample.engine (Some (OtherError (lit "RuntimeError") (lit "boom")))
          (Sample.run 1 (Ok (Some (lit "pong"))) NoProvider))
       (Sample.request (Some []) (Some (lit "gpt-5"))) =
    Raise (HTTPException 500 (lit "AI processing failed")).
Proof.
  intros g catalog. split_and!; try reflexivity.
  - rewrite list_elem_of_In. vm_compute. intros [H|[H|[]]]; discriminate.
  - rewrite list_elem_of_In. vm_compute. intros [H|[H|[]]]; discriminate.
  - unfold mentions. rewrite <- PyStrFacts.contains_substring. vm_compute. discriminate.
Qed.

(** C10, as the handler has it: after a history that passes validation, a
    request whose model is [None] fails with status 400 as a model-not-found
    error: normalizing [None] raises [AttributeError], which the handler of
    the resolution turns into the 400 that lists the catalog; the engine is
    not called. The catalog has to be enumerable. *)
Theorem null_model_rejected (g : g4f) (request : ChatRequest) h names :
  history request = Some h -> Forall allowed h ->
  model request = None ->
  dir (models g) = Ok names ->
  (exists e, normalize_model (model request) = Raise e /\ is_AttributeError e = true) /\
  chat g request = Raise (HTTPException 400 (not_found_detail None (public names))) /\
  http_status (chat g request) = 400 /\
  engine_calls (trace (chat_with_ai g request)) = [].
Proof.
  intros Hh Hall Hnull Hdir. split.
  - rewrite Hnull. by eexists.
  - assert (Hnone : forall name, model request = Some name ->
                      attrs (models g) !! replace 45 95 name = None)
      by (intros name; by rewrite Hnull).
    destruct (model_not_found g request h names Hh Hall Hnone Hdir) as [Hchat Hcalls].
    rewrite Hnull in Hchat. by rewrite Hchat.
Qed.

Lemma null_model_rejected_witness :
  let g := Sample.engine None (Sample.run 1 (Ok (Some (lit "pong"))) NoProvider) in
  let request := Sample.request (Some [Sample.turn "user" "a"]) None in
  chat g request =
    Raise (HTTPException 400
             (lit "Model 'None' not found. Available: gpt_4o_mini, llama_3")) /\
  http_status (chat g request) = 400.
Proof.
  intros g request.
  assert (Hall : Forall allowed [Sample.turn "user" "a"]).
  { apply Forall_cons; split; [apply allowed_roles; by left | apply Forall_nil_2]. }
  destruct (null_model_rejected g request [Sample.turn "user" "a"]
              [lit "__name__"; lit "gpt_4o_mini"; lit "llama_3"]
              eq_refl Hall eq_refl eq_refl)
    as (_ & Hchat & Hstatus & _).
  split; [exact Hchat | exact Hstatus].
Defined.

(** C10 as stated fails on the handler: with a null model, a history that
    validation rejects gets the 400 of the role check, not the
    model-not-found error; a null history raises [TypeError] before the
    model is looked at, a 500; and when [dir] raises, the answer is 500. *)
Lemma null_model_counterexample :
  let g := Sample.engine None (Sample.run 1 (Ok (Some (lit "pong"))) NoProvider) in
  (chat g (Sample.request (Some [Sample.turn "system" "s"]) None) =
     Raise (HTTPException 400 invalid_role_detail) /\
   invalid_role_detail <>
     not_found_detail None [lit "gpt_4o_mini"; lit "llama_3"]) /\
  (chat g (Sample.request None None) =
     Raise (TypeError (lit "'NoneType' object is not iterable")) /\
   http_status (chat g (Sample.request None None)) = 500) /\
  chat (Sample.engine (Some (OtherError (lit "RuntimeError") (lit "boom")))
          (Sample.run 1 (Ok (Some (lit "pong"))) NoProvider))
       (Sample.request (Some []) None) =
    Raise (HTTPException 500 (lit "AI processing failed")).
Proof.
  intros g. split_and!; try reflexivity.
  vm_compute. discriminate.
Qed.

(** * Further properties of the handlers *)

(** The outer handler, case by case. *)
Lemma on_error_run {A} (e : exn) tr :
  @on_error A e tr =
    if is_HTTPException e then (Raise e, tr)
    else (Raise (generic_failure e), tr ++ [error_line e]).
Proof.
  unfold on_error, generic_failure, error_line.
  destruct (is_HTTPException e); [done|]. run_handler.
  by destruct (contains _ _).
Qed.

(** Why resolution fails, when it does. *)
Lemma resolve_model_fails (g : g4f) o e :
  answer (resolve_model g o) = Raise e ->
  (forall name, o = Some name -> attrs (models g) !! replace 45 95 name = None) /\
  (dir (models g) = Raise e \/
   exists names, dir (models g) = Ok names /\
                 e = HTTPException 400 (not_found_detail o (public names))).
Proof.
  intros Hres.
  assert (Hnone : forall name, o = Some name ->
                    attrs (models g) !! replace 45 95 name = None).
  { intros name ->. apply eq_None_not_Some. intros [mdl Hget].
    by rewrite (resolve_model_found g name mdl Hget) in Hres. }
  split; [done|]. rewrite (resolve_model_missing g o Hnone) in Hres.
  destruct (dir (models g)) as [names|e'].
  - right. exists names. split; [done | congruence].
  - left. congruence.
Qed.

(** Why validation fails, when it does. *)
Lemma validate_history_fails o e :
  answer (validate_history o) = Raise e ->
  (o = None /\ e = TypeError (lit "'NoneType' object is not iterable")) \/
  (exists h, o = Some h /\ Exists (fun msg => ~ allowed msg) h /\
             e = HTTPException 400 invalid_role_detail).
Proof.
  destruct o as [h|]; [|intros [= <-]; by left].
  unfold answer, validate_history, mbind, M_bind.
  destruct (check_roles h []) as [r tr] eqn:Hrun.
  apply check_roles_inv in Hrun as [-> [[-> _] | [-> Hex]]]; [done|].
  intros [= <-]. right. by exists h.
Qed.

(** The last segment of [split] is the part after a separator that is
    followed by no other. *)
Lemma split_last_suffix sep pre seg :
  sep ∉ seg -> last (split sep (pre ++ sep :: seg)) = Some seg.
Proof.
  intros Hfree.
  assert (Hseg : split sep seg = [seg]).
  { clear pre. induction seg as [|c seg IH]; [done|].
    apply not_elem_of_cons in Hfree as [Hc Hfree]. simpl.
    destruct (N.eqb_spec c sep) as [->|_]; [done|]. by rewrite (IH Hfree). }
  induction pre as [|c pre IH]; simpl.
  - rewrite N.eqb_refl, Hseg. done.
  - pose proof (PyStrFacts.split_nonempty sep (pre ++ sep :: seg)) as Hne.
    destruct (split sep (pre ++ sep :: seg)) as [|seg0 rest] eqn:Hsplit; [done|].
    destruct (N.eqb c sep); [done|].
    destruct rest as [|seg1 rest]; [|done].
    simpl in IH. injection IH as ->.
    (* one segment only, yet the string holds a separator *)
    exfalso. destruct (PyStrFacts.split_segments sep (pre ++ sep :: seg))
      as (init & seg' & Hsplit' & Hfree' & Hs).
    rewrite Hsplit in Hsplit'. destruct init as [|? [|? ?]]; try done.
    injection Hsplit' as <-. simpl in Hs.
    apply Forall_inv in Hfree'. apply Hfree'. rewrite <- Hs.
    rewrite elem_of_app, elem_of_cons. auto.
Qed.

Lemma split_last_whole sep seg : sep ∉ seg -> last (split sep seg) = Some seg.
Proof.
  induction seg as [|c seg IH]; [done|].
  intros [Hc Hfree]%not_elem_of_cons. simpl.
  destruct (N.eqb_spec c sep) as [->|_]; [done|].
  specialize (IH Hfree).
  destruct (PyStrFacts.split_segments sep seg) as (init & seg' & Hsplit & Hfree' & Hs).
  rewrite Hsplit in IH |- *. rewrite last_snoc in IH. injection IH as ->.
  destruct init as [|seg0 init]; [done|].
  exfalso. apply Hfree. rewrite Hs. simpl.
  rewrite <- !app_assoc, !elem_of_app, elem_of_cons. auto.
Qed.

(** Turning hyphens into underscores and back loses nothing on a name
    without underscores. *)
Lemma replace_back (s : str) : 95%N ∉ s -> replace 95 45 (replace 45 95 s) = s.
Proof.
  intros Hs. unfold replace. rewrite <- list_fmap_compose.
  rewrite <- (list_fmap_id s) at 2. apply Forall_fmap_ext, Forall_forall.
  intros c Hc. simpl.
  destruct (N.eqb_spec c 45) as [->|?]; [done|].
  destruct (N.eqb_spec c 95) as [->|?]; [done | done].
Qed.

(** X1: as long as neither the engine call nor the enumeration of the
    catalog raises an [HTTPException] of its own, the status of an answer
    of [chat_with_ai] is one of 200, 400, 500, 502, 503 and 504. *)
Theorem chat_status_codes (g : g4f) (request : ChatRequest) :
  (forall m ms s d, produced (create_async g m ms) <> Raise (HTTPException s d)) ->
  (forall s d, dir_raises (models g) <> Some (HTTPException s d)) ->
  http_status (chat g request) ∈ chat_statuses.
Proof.
  intros Hengine Hdir. unfold chat_statuses.
  assert (Hgeneric : forall e tr, is_HTTPException e = false ->
            http_status (fst (@on_error ChatResponse e tr)) ∈ [200; 400; 500; 502; 503; 504]).
  { intros e tr He. rewrite on_error_run, He. unfold generic_failure.
    destruct (contains _ _); simpl; in_list. }
  destruct (answer (validate_history (history request))) as [h|e] eqn:Hval.
  2:{ destruct (rejected_by_validation g request e Hval) as [-> _].
      apply validate_history_fails in Hval as [[_ ->] | (h & _ & _ & ->)];
        simpl; in_list. }
  destruct (answer (resolve_model g (model request))) as [mdl|e] eqn:Hres.
  2:{ destruct (rejected_by_resolution g request h e Hval Hres) as [-> _].
      apply resolve_model_fails in Hres as [_ [Hraise | (names & _ & ->)]].
      - apply Hgeneric. apply dir_fails in Hraise.
        destruct e; try done. by apply Hdir in Hraise.
      - simpl. in_list. }
  rewrite (chat_after_call g request h mdl Hval Hres).
  unfold wait_for. specialize (Hengine mdl (build_messages h (message request))).
  destruct (Qle_bool _ _).
  - destruct (produced _) as [[out|]|e]; [| simpl; in_list |].
    + destruct (is_blank (Some out)); [simpl; in_list|].
      destruct (display_model_segment mdl) as (seg & -> & _). simpl. in_list.
    + destruct e as [s d| | | | |]; try (apply Hgeneric; done).
      * by destruct (Hengine s d).
      * simpl. in_list.
  - simpl. in_list.
Qed.

Lemma chat_status_codes_witness :
  let g := Sample.engine None
             (Sample.run 1 (Raise (OtherError (lit "RuntimeError") (lit "boom"))) NoProvider) in
  http_status (chat g (ChatRequest_default (lit "ping"))) ∈ chat_statuses.
Proof.
  intros g. apply (chat_status_codes g (ChatRequest_default (lit "ping"))).
  - intros m ms s d. simpl. discriminate.
  - intros s d. simpl. discriminate.
Defined.

(** X2: a request calls the engine at most once, and it calls it exactly
    when its history passes validation and its model names an attribute of
    [g4f.models]; there is no retry. *)
Theorem engine_called_at_most_once (g : g4f) (request : ChatRequest) :
  (length (engine_calls (trace (chat_with_ai g request))) <= 1)%nat /\
  (engine_calls (trace (chat_with_ai g request)) <> [] <->
   exists h name mdl,
     history request = Some h /\ Forall allowed h /\
     model request = Some name /\
     attrs (models g) !! replace 45 95 name = Some mdl).
Proof.
  destruct (answer (validate_history (history request))) as [h|e] eqn:Hval.
  2:{ destruct (rejected_by_validation g request e Hval) as [_ ->].
      split; [simpl; lia|]. split; [done|].
      intros (h & name & mdl & Hh & Hall & _).
      assert (answer (validate_history (history request)) = Ok h)
        by by apply validate_history_pass.
      congruence. }
  destruct (answer (resolve_model g (model request))) as [mdl|e] eqn:Hres.
  2:{ destruct (rejected_by_resolution g request h e Hval Hres) as [_ ->].
      split; [simpl; lia|]. split; [done|].
      intros (h' & name & mdl & _ & _ & Hname & Hget).
      rewrite Hname, (resolve_model_found g name mdl Hget) in Hres. done. }
  rewrite (engine_called_once g request h mdl Hval Hres).
  split; [simpl; lia|]. split; [|done]. intros _.
  apply validate_history_pass in Hval as [Hh Hall].
  apply resolve_model_inv in Hres as (name & Hname & Hget).
  by exists h, name, mdl.
Qed.

(** What a request leaves in the log. *)
Lemma chat_trace_cases (g : g4f) (request : ChatRequest) :
  (exists e, chat g request = Raise e /\
     (trace (chat_with_ai g request) = [received request] \/
      exists mdl ms,
        trace (chat_with_ai g request) = [received request; EngineCall mdl ms])) \/
  (exists e calls,
     chat g request = Raise (generic_failure e) /\
     trace (chat_with_ai g request) = received request :: calls ++ [error_line e] /\
     (calls = [] \/ exists mdl ms, calls = [EngineCall mdl ms])) \/
  (exists resp mdl ms,
     chat g request = Ok resp /\
     trace (chat_with_ai g request) =
       [received request; EngineCall mdl ms; responded resp]).
Proof.
  unfold chat, answer, trace. rewrite chat_with_ai_unfold. simpl.
  assert (Hon : forall e calls,
    (calls = [] \/ exists mdl ms, calls = [EngineCall mdl ms]) ->
    let r := @on_error ChatResponse e (received request :: calls) in
    (exists e', fst r = Raise e' /\
       (snd r = [received request] \/
        exists mdl ms, snd r = [received request; EngineCall mdl ms])) \/
    (exists e' calls',
       fst r = Raise (generic_failure e') /\
       snd r = received request :: calls' ++ [error_line e'] /\
       (calls' = [] \/ exists mdl ms, calls' = [EngineCall mdl ms]))).
  { intros e calls Hcalls r. subst r. rewrite on_error_run.
    destruct (is_HTTPException e); simpl.
    - left. exists e. split; [done|].
      destruct Hcalls as [->|(mdl & ms & ->)]; [by left | right; by exists mdl, ms].
    - right. by exists e, calls. }
  destruct (answer (validate_history (history request))) as [h|e]; simpl.
  2:{ left. exists e. split; [done | by left]. }
  destruct (answer (resolve_model g (model request))) as [mdl|e].
  2:{ destruct (Hon e [] (or_introl eq_refl)) as [H|H]; [by left | right; by left]. }
  set (ms := build_messages h (message request)).
  assert (Hcall : [EngineCall mdl ms] = [] \/
                  exists mdl' ms', [EngineCall mdl ms] = [EngineCall mdl' ms'])
    by (right; by exists mdl, ms).
  destruct (wait_for _ _) as [[out|]|e].
  - destruct (falsy out || falsy (strip out)).
    + destruct (Hon (HTTPException 502 (lit "Empty response from AI")) _ Hcall)
        as [H|H]; [by left | right; by left].
    + destruct (display_model mdl) as [shown|e].
      * right; right. eexists _, mdl, ms. split; reflexivity.
      * destruct (Hon e _ Hcall) as [H|H]; [by left | right; by left].
  - destruct (Hon (HTTPException 502 (lit "Empty response from AI")) _ Hcall)
      as [H|H]; [by left | right; by left].
  - destruct (Hon (if is_TimeoutError e
                   then HTTPException 504 (lit "AI response timed out") else e) _ Hcall)
      as [H|H]; [by left | right; by left].
Qed.

(** X3: every request logs its receipt line first; an answer is followed
    by exactly one more line, which gives the provider and the length of
    the response; and an error line is logged only for a failure the
    caller sees as the generic 503 or 500. *)
Theorem chat_logging (g : g4f) (request : ChatRequest) :
  head (trace (chat_with_ai g request)) = Some (received request) /\
  (forall resp,
     chat g request = Ok resp ->
     exists mdl ms,
       trace (chat_with_ai g request) =
         [received request; EngineCall mdl ms; responded resp]) /\
  (forall line,
     LogError line ∈ trace (chat_with_ai g request) ->
     chat g request =
       Raise (HTTPException 503 (lit "AI service is temporarily blocked")) \/
     chat g request = Raise (HTTPException 500 (lit "AI processing failed"))).
Proof.
  destruct (chat_trace_cases g request)
    as [(e & Hchat & Htrace) | [(e & calls & Hchat & Htrace & Hcalls)
                               | (resp & mdl & ms & Hchat & Htrace)]].
  - split_and!.
    + by destruct Htrace as [-> | (mdl & ms & ->)].
    + intros resp Hok. congruence.
    + intros line Hin. exfalso.
      destruct Htrace as [Htr | (mdl & ms & Htr)]; rewrite Htr in Hin;
        repeat (apply elem_of_cons in Hin as [Hin|Hin]; [done|]);
        by apply elem_of_nil in Hin.
  - split_and!.
    + by rewrite Htrace.
    + intros resp Hok. congruence.
    + intros line _. rewrite Hchat. unfold generic_failure.
      destruct (contains _ _); auto.
  - split_and!.
    + by rewrite Htrace.
    + intros resp' Hok. rewrite Hchat in Hok. injection Hok as <-.
      by exists mdl, ms.
    + intros line Hin. exfalso. rewrite Htrace in Hin. unfold responded in Hin.
      repeat (apply elem_of_cons in Hin as [Hin|Hin]; [done|]).
      by apply elem_of_nil in Hin.
Qed.

Lemma chat_logging_witness :
  let g := Sample.engine None (Sample.run 2 (Ok (Some (lit " pong ")))
                                 (Provider (Some (lit "Bing")))) in
  let request := ChatRequest_default (lit "ping") in
  exists mdl ms,
    trace (chat_with_ai g request) =
      [LogInfo (lit "Chat request | Model: gpt-4o-mini");
       EngineCall mdl ms;
       LogInfo (lit "AI responded | Provider: Bing, Length: 4")].
Proof.
  intros g request.
  destruct (chat_logging g request) as (_ & Hok & _).
  destruct (Hok _ eq_refl) as (mdl & ms & Htrace).
  exists mdl, ms. rewrite Htrace. reflexivity.
Defined.

(** X4: a request whose history is null gets no HTTP error of the
    handler: iterating [None] raises [TypeError] outside the [try], whatever
    the model and the engine, so the caller sees a 500, the engine is not
    called and nothing but the receipt line is logged. *)
Theorem null_history_escapes (g : g4f) (request : ChatRequest) :
  history request = None ->
  chat g request = Raise (TypeError (lit "'NoneType' object is not iterable")) /\
  http_status (chat g request) = 500 /\
  trace (chat_with_ai g request) = [received request].
Proof.
  intros Hnull. unfold chat, answer, trace. rewrite chat_with_ai_unfold.
  by rewrite Hnull.
Qed.

Lemma null_history_escapes_witness :
  let g := Sample.engine None (Sample.run 1 (Ok (Some (lit "pong"))) NoProvider) in
  http_status (chat g (Sample.request None (Some (lit "gpt-4o-mini")))) = 500.
Proof.
  intros g.
  exact (proj1 (proj2 (null_history_escapes g
           (Sample.request None (Some (lit "gpt-4o-mini"))) eq_refl))).
Defined.



(** X6: a [TimeoutError] that the engine call raises by itself, inside the
    deadline, is answered like an exceeded deadline, with status 504, and
    is not logged as an error. *)
Theorem engine_timeout_error (g : g4f) (request : ChatRequest) h name mdl text :
  history request = Some h -> Forall allowed h ->
  model request = Some name ->
  attrs (models g) !! replace 45 95 name = Some mdl ->
  let run := create_async g mdl (build_messages h (message request)) in
  (elapsed run <= 30)%Q ->
  produced run = Raise (TimeoutError text) ->
  chat g request = Raise (HTTPException 504 (lit "AI response timed out")) /\
  trace (chat_with_ai g request) =
    [received request; EngineCall mdl (build_messages h (message request))].
Proof.
  intros Hh Hall Hname Hget run Hin Hraise.
  destruct (validated_resolved g request h name mdl Hh Hall Hname Hget) as [Hval Hres].
  assert (Hwait : wait_for run 30 = Raise (TimeoutError text)).
  { unfold wait_for. apply Qle_bool_iff in Hin. by rewrite Hin. }
  split.
  - rewrite (chat_after_call g request h mdl Hval Hres). fold run. by rewrite Hwait.
  - unfold trace. rewrite chat_with_ai_unfold. simpl. rewrite Hval, Hres.
    fold run. by rewrite Hwait.
Qed.

Lemma engine_timeout_error_witness :
  let g := Sample.engine None
             (Sample.run 3 (Raise (TimeoutError (lit "read timed out"))) NoProvider) in
  let request := Sample.request (Some []) (Some (lit "llama-3")) in
  chat g request = Raise (HTTPException 504 (lit "AI response timed out")).
Proof.
  intros g request.
  refine (proj1 (engine_timeout_error g request [] (lit "llama-3")
                   (PyObject (lit "llama_3")) (lit "read timed out")
                   eq_refl (Forall_nil_2 _) eq_refl eq_refl _ eq_refl)).
  simpl. discriminate.
Defined.

(** X7: an [HTTPException] that the engine call raises inside the deadline
    reaches the caller with its own status and detail, whatever they are,
    and is not logged as an error. *)
Theorem engine_http_exception (g : g4f) (request : ChatRequest) h name mdl s d :
  history request = Some h -> Forall allowed h ->
  model request = Some name ->
  attrs (models g) !! replace 45 95 name = Some mdl ->
  wait_for (create_async g mdl (build_messages h (message request))) 30
    = Raise (HTTPException s d) ->
  chat g request = Raise (HTTPException s d) /\
  http_status (chat g request) = s /\
  trace (chat_with_ai g request) =
    [received request; EngineCall mdl (build_messages h (message request))].
Proof.
  intros Hh Hall Hname Hget Hwait.
  destruct (validated_resolved g request h name mdl Hh Hall Hname Hget) as [Hval Hres].
  split_and!.
  - by rewrite (chat_after_call g request h mdl Hval Hres), Hwait.
  - by rewrite (chat_after_call g request h mdl Hval Hres), Hwait.
  - unfold trace. rewrite chat_with_ai_unfold. simpl. by rewrite Hval, Hres, Hwait.
Qed.

Lemma engine_http_exception_witness :
  let g := Sample.engine None
             (Sample.run 3 (Raise (HTTPException 429 (lit "slow down"))) NoProvider) in
  let request := Sample.request (Some []) (Some (lit "llama-3")) in
  chat g request = Raise (HTTPException 429 (lit "slow down")).
Proof.
  intros g request.
  exact (proj1 (engine_http_exception g request [] (lit "llama-3")
                  (PyObject (lit "llama_3")) 429 (lit "slow down")
                  eq_refl (Forall_nil_2 _) eq_refl eq_refl eq_refl)).
Defined.

(** X8: when the model does not resolve and the enumeration of the catalog
    raises in the handler of the resolution, the caller gets no 400: an
    exception that is no [HTTPException] is logged and answered with the
    generic 503 or 500, and the engine is not called. *)
Theorem unresolved_model_dir_raises (g : g4f) (request : ChatRequest) h e :
  history request = Some h -> Forall allowed h ->
  (forall name, model request = Some name ->
                attrs (models g) !! replace 45 95 name = None) ->
  dir (models g) = Raise e ->
  is_HTTPException e = false ->
  chat g request = Raise (generic_failure e) /\
  (http_status (chat g request) = 503 \/ http_status (chat g request) = 500) /\
  trace (chat_with_ai g request) = [received request; error_line e].
Proof.
  intros Hh Hall Hnone Hdir He.
  assert (Hval : answer (validate_history (history request)) = Ok h)
    by by apply validate_history_pass.
  pose proof (resolve_model_missing g (model request) Hnone) as Hres.
  rewrite Hdir in Hres.
  assert (Hrun : chat_with_ai g request [] =
                 (Raise (generic_failure e), [received request; error_line e])).
  { rewrite chat_with_ai_unfold. simpl. rewrite Hval, Hres, on_error_run, He. done. }
  unfold chat, answer, trace. rewrite Hrun. simpl. split_and!; [done | | done].
  unfold generic_failure. destruct (contains _ _); auto.
Qed.

Lemma unresolved_model_dir_raises_witness :
  let e := OtherError (lit "RuntimeError") (lit "Cloudflare says no") in
  let g := Sample.engine (Some e) (Sample.run 1 (Ok (Some (lit "pong"))) NoProvider) in
  let request := Sample.request (Some []) (Some (lit "gpt-5")) in
  chat g request = Raise (HTTPException 503 (lit "AI service is temporarily blocked")).
Proof.
  intros e g request.
  refine (proj1 (unresolved_model_dir_raises g request [] e
                   eq_refl (Forall_nil_2 _) _ eq_refl eq_refl)).
  intros name [= <-]. reflexivity.
Defined.

Lemma list_models_inv (g : g4f) listing :
  list_models g = Ok listing ->
  exists names, dir (models g) = Ok names /\ listed_models listing = public names.
Proof.
  unfold list_models. destruct (dir (models g)) as [names|e]; [|done].
  intros [= <-]. by exists names.
Qed.

(** X9: the model-not-found error and [GET /api/models] agree: when the
    model names no attribute of [g4f.models], or is null, the detail of the
    400 is the requested name followed by the very list [list_models]
    returns, joined by a comma and a space. *)
Theorem not_found_lists_models (g : g4f) (request : ChatRequest) h listing :
  history request = Some h -> Forall allowed h ->
  (forall name, model request = Some name ->
                attrs (models g) !! replace 45 95 name = None) ->
  list_models g = Ok listing ->
  chat g request =
    Raise (HTTPException 400
             (lit "Model '" ++ fmt_optional (model request)
              ++ lit "' not found. Available: "
              ++ join (lit ", ") (listed_models listing))).
Proof.
  intros Hh Hall Hnone (names & Hdir & ->)%list_models_inv.
  by destruct (model_not_found g request h names Hh Hall Hnone Hdir) as [-> _].
Qed.

Lemma not_found_lists_models_witness :
  let g := Sample.engine None (Sample.run 1 (Ok (Some (lit "pong"))) NoProvider) in
  chat g (Sample.request (Some []) (Some (lit "gpt-5"))) =
    Raise (HTTPException 400
             (lit "Model 'gpt-5' not found. Available: gpt_4o_mini, llama_3")).
Proof.
  intros g.
  refine (not_found_lists_models g (Sample.request (Some []) (Some (lit "gpt-5"))) []
            {| listed_models := [lit "gpt_4o_mini"; lit "llama_3"] |}
            eq_refl (Forall_nil_2 _) _ eq_refl).
  intros name [= <-]. reflexivity.
Defined.

(** X10: every identifier [GET /api/models] lists is accepted as a model:
    a request whose model, with hyphens turned into underscores, is a listed
    identifier reaches the engine, once, with the attribute of that name. *)
Theorem listed_model_accepted (g : g4f) (request : ChatRequest) h name listing :
  history request = Some h -> Forall allowed h ->
  model request = Some name ->
  list_models g = Ok listing ->
  replace 45 95 name ∈ listed_models listing ->
  exists mdl,
    attrs (models g) !! replace 45 95 name = Some mdl /\
    engine_calls (trace (chat_with_ai g request)) =
      [(mdl, build_messages h (message request))].
Proof.
  intros Hh Hall Hname (names & Hdir & ->)%list_models_inv Hin.
  apply (catalog_elem (models g) names _ Hdir) in Hin as [[mdl Hget] _].
  exists mdl. split; [done|].
  destruct (validated_resolved g request h name mdl Hh Hall Hname Hget) as [Hval Hres].
  by apply engine_called_once.
Qed.

Lemma listed_model_accepted_witness :
  let g := Sample.engine None (Sample.run 1 (Ok (Some (lit "pong"))) NoProvider) in
  let request := Sample.request (Some []) (Some (lit "gpt-4o-mini")) in
  exists mdl, engine_calls (trace (chat_with_ai g request)) =
                [(mdl, [[(lit "role", lit "user"); (lit "content", lit "hi")]])].
Proof.
  intros g request.
  assert (Hin : replace 45 95 (lit "gpt-4o-mini") ∈ [lit "gpt_4o_mini"; lit "llama_3"])
    by apply list_elem_of_here.
  destruct (listed_model_accepted g request [] (lit "gpt-4o-mini")
              {| listed_models := [lit "gpt_4o_mini"; lit "llama_3"] |}
              eq_refl (Forall_nil_2 _) eq_refl eq_refl Hin) as (mdl & _ & Hcalls).
  by exists mdl.
Defined.

(** X11: hyphens and underscores in the model name are interchangeable: two
    requests with the same message and history whose model names agree once
    hyphens are turned into underscores get the same status, the same
    answers and the same engine calls. *)
Theorem model_name_separators (g : g4f) (r1 r2 : ChatRequest) name1 name2 :
  message r1 = message r2 -> history r1 = history r2 ->
  model r1 = Some name1 -> model r2 = Some name2 ->
  replace 45 95 name1 = replace 45 95 name2 ->
  http_status (chat g r1) = http_status (chat g r2) /\
  (forall resp, chat g r1 = Ok resp <-> chat g r2 = Ok resp) /\
  engine_calls (trace (chat_with_ai g r1)) = engine_calls (trace (chat_with_ai g r2)).
Proof.
  intros Hmsg Hhist Hm1 Hm2 Hnorm.
  destruct (answer (validate_history (history r1))) as [h|e] eqn:Hval1.
  2:{ assert (Hval2 : answer (validate_history (history r2)) = Raise e)
        by by rewrite <- Hhist.
      destruct (rejected_by_validation g r1 e Hval1) as [-> ->].
      by destruct (rejected_by_validation g r2 e Hval2) as [-> ->]. }
  assert (Hval2 : answer (validate_history (history r2)) = Ok h) by by rewrite <- Hhist.
  destruct (attrs (models g) !! replace 45 95 name1) as [mdl|] eqn:Hget.
  - assert (Hres1 : answer (resolve_model g (model r1)) = Ok mdl)
      by (rewrite Hm1; by apply resolve_model_found).
    assert (Hres2 : answer (resolve_model g (model r2)) = Ok mdl)
      by (rewrite Hm2; apply resolve_model_found; by rewrite <- Hnorm).
    rewrite (chat_after_call g r1 h mdl Hval1 Hres1).
    rewrite (chat_after_call g r2 h mdl Hval2 Hres2).
    rewrite (engine_called_once g r1 h mdl Hval1 Hres1).
    rewrite (engine_called_once g r2 h mdl Hval2 Hres2).
    by rewrite Hmsg.
  - assert (Hnone1 : forall name, model r1 = Some name ->
                       attrs (models g) !! replace 45 95 name = None)
      by (intros name; rewrite Hm1; by intros [= <-]).
    assert (Hnone2 : forall name, model r2 = Some name ->
                       attrs (models g) !! replace 45 95 name = None)
      by (intros name; rewrite Hm2; intros [= <-]; by rewrite <- Hnorm).
    pose proof (resolve_model_missing g (model r1) Hnone1) as Hres1.
    pose proof (resolve_model_missing g (model r2) Hnone2) as Hres2.
    destruct (dir (models g)) as [names|e].
    + destruct (rejected_by_resolution g r1 h _ Hval1 Hres1) as [-> ->].
      by destruct (rejected_by_resolution g r2 h _ Hval2 Hres2) as [-> ->].
    + destruct (rejected_by_resolution g r1 h _ Hval1 Hres1) as [-> ->].
      by destruct (rejected_by_resolution g r2 h _ Hval2 Hres2) as [-> ->].
Qed.

Lemma model_name_separators_witness :
  let g := Sample.engine None (Sample.run 1 (Ok (Some (lit "pong"))) NoProvider) in
  chat g (Sample.request (Some []) (Some (lit "gpt_4o-mini"))) =
    Ok {| response := lit "pong";
          used_model := lit "gpt-4o-mini";
          used_provider := lit "Unknown" |}.
Proof.
  intros g.
  destruct (model_name_separators g
              (Sample.request (Some []) (Some (lit "gpt-4o-mini")))
              (Sample.request (Some []) (Some (lit "gpt_4o-mini")))
              (lit "gpt-4o-mini") (lit "gpt_4o-mini")
              eq_refl eq_refl eq_refl eq_refl eq_refl) as (_ & Hsame & _).
  apply Hsame. reflexivity.
Defined.

(** X12: the model name makes the round trip: when the string form of the
    resolved model is the attribute name, bare or after a dotted prefix, a
    successful answer to a request whose model name has no underscore and no
    dot carries that very name in its [model] field. *)
Theorem model_name_round_trip (g : g4f) (request : ChatRequest) resp name mdl :
  chat g request = Ok resp ->
  model request = Some name ->
  attrs (models g) !! replace 45 95 name = Some mdl ->
  py_str mdl = replace 45 95 name \/
    (exists pre, py_str mdl = pre ++ 46%N :: replace 45 95 name) ->
  95%N ∉ name -> 46%N ∉ name ->
  used_model resp = name.
Proof.
  intros Hok Hname Hget Hstr Hunder Hdot.
  destruct (chat_success_inv g request resp Hok)
    as (h & name' & mdl' & out & shown & _ & _ & Hname' & Hget' & _ & _ & Hshown & ->).
  rewrite Hname in Hname'. injection Hname' as <-.
  rewrite Hget in Hget'. injection Hget' as <-. simpl.
  assert (Hfree : 46%N ∉ replace 45 95 name).
  { unfold replace. intros (c & Hc & Hin)%list_elem_of_fmap.
    destruct (N.eqb_spec c 45) as [Heq|_]; [done | congruence]. }
  assert (Hlast : last (split 46 (py_str mdl)) = Some (replace 45 95 name)).
  { destruct Hstr as [-> | [pre ->]];
      [by apply split_last_whole | by apply split_last_suffix]. }
  unfold display_model, last_item in Hshown. rewrite Hlast in Hshown.
  injection Hshown as <-. by apply replace_back.
Qed.

Lemma model_name_round_trip_witness :
  let g := Sample.engine None (Sample.run 1 (Ok (Some (lit "pong"))) NoProvider) in
  exists resp,
    chat g (ChatRequest_default (lit "ping")) = Ok resp /\
    used_model resp = lit "gpt-4o-mini".
Proof.
  intros g. eexists. split; [reflexivity|].
  apply (model_name_round_trip g (ChatRequest_default (lit "ping")) _
           (lit "gpt-4o-mini") (PyObject (lit "g4f.models.gpt_4o_mini")) eq_refl
           eq_refl eq_refl).
  - right. by exists (lit "g4f.models").
  - rewrite list_elem_of_In. vm_compute. intuition discriminate.
  - rewrite list_elem_of_In. vm_compute. intuition discriminate.
Defined.

(** X13: the [model] field of an answer holds neither an underscore nor a
    dot, whatever the string form of the resolved model is. *)
Theorem returned_model_separators (g : g4f) (request : ChatRequest) resp :
  chat g request = Ok resp ->
  (95%N ∉ used_model resp) /\ (46%N ∉ used_model resp).
Proof.
  intros Hok.
  destruct (chat_success_inv g request resp Hok)
    as (h & name & mdl & out & shown & _ & _ & _ & _ & _ & _ & Hshown & ->).
  destruct (display_model_segment mdl) as (seg & Hseg & Hfree & _).
  rewrite Hseg in Hshown. injection Hshown as <-. simpl. unfold replace.
  split; intros (c & Hc & Hin)%list_elem_of_fmap.
  - destruct (N.eqb_spec c 95) as [Heq|Hne]; [done | congruence].
  - destruct (N.eqb_spec c 95) as [Heq|Hne]; [done | congruence].
Qed.

Lemma returned_model_separators_witness :
  let g := Sample.engine None (Sample.run 1 (Ok (Some (lit "pong"))) NoProvider) in
  let request := Sample.request (Some []) (Some (lit "__name__")) in
  chat g request =
    Ok {| response := lit "pong"; used_model := lit "models";
          used_provider := lit "Unknown" |} /\
  (46%N ∉ lit "models").
Proof.
  intros g request. split; [reflexivity|].
  exact (proj2 (returned_model_separators g request _ eq_refl)).
Defined.
